(** * networking_ip_interface.go: a shallow embedding of the ONTAP IP
    interface adapter (GetIPInterface, GetIPInterfaces, CreateIPInterface,
    DeleteIPInterface) and its collaborators. *)

From stdpp Require Import base gmap strings list.
From Stdlib Require Import ZArith Ascii String.

Set Warnings "-register-all".
Open Scope string_scope.

(* ------------------------------------------------------------------ *)
(** ** Go values *)

(** A decoded JSON value as Go holds it in an [interface{}]: objects are
    [map[string]interface{}] (an association list with unique keys), arrays
    [[]interface{}], numbers, strings, booleans and nil. *)
Inductive jval :=
| JNull
| JBool (b : bool)
| JNum (z : Z)
| JStr (s : string)
| JArr (l : list jval)
| JObj (m : list (string * jval)).

(** [map[string]interface{}] *)
Abbreviation jobj := (list (string * jval)).

(** A Go slice: the nil slice, or a non-nil slice with its elements. *)
Inductive slice (A : Type) :=
| nil_slice
| mk_slice (l : list A).
Arguments nil_slice {A}.
Arguments mk_slice {A} _.

(** [append(s, x)] *)
Definition append {A} (s : slice A) (x : A) : slice A :=
  match s with
  | nil_slice => mk_slice [x]
  | mk_slice l => mk_slice (l ++ [x])
  end.

(** The elements [for _, x := range s] visits. *)
Definition elems {A} (s : slice A) : list A :=
  match s with nil_slice => [] | mk_slice l => l end.

(** A Go call either returns or panics. *)
Inductive go_result (A : Type) :=
| Ret (a : A)
| Panic (msg : string).
Arguments Ret {A} _.
Arguments Panic {A} _.

(** Go [error] values: an [errors.New]/[fmt.Errorf] error with its message,
    or the diagnostic error made by [ErrorHandler.MakeAndReportError]. *)
Inductive go_error :=
| GoErr (msg : string)
| Diag (summary detail : string).

Definition Error (e : go_error) : string :=
  match e with
  | GoErr m => m
  | Diag s d => s ++ ": " ++ d
  end.

(* ------------------------------------------------------------------ *)
(** ** fmt helpers *)

Definition dquote : string := String "034"%char EmptyString.

Fixpoint digits_of (fuel : nat) (n : Z) (acc : string) : string :=
  match fuel with
  | O => acc
  | S f =>
      let d := Z.to_nat (n mod 10) in
      let acc' := String (ascii_of_nat (48 + d)) acc in
      if (n <? 10)%Z then acc' else digits_of f (n / 10)%Z acc'
  end.

(** [%d] of an integer. *)
Definition itoa (n : Z) : string :=
  if (n <? 0)%Z then "-" ++ digits_of 64 (- n)%Z ""
  else digits_of 64 n "".

Fixpoint concat_with (sep : string) (l : list string) : string :=
  match l with
  | [] => ""
  | [x] => x
  | x :: r => x ++ sep ++ concat_with sep r
  end.

(** [%#v] of a decoded JSON value (Go syntax representation). *)
Fixpoint gosyntax (v : jval) : string :=
  match v with
  | JNull => "interface {}(nil)"
  | JBool true => "true"
  | JBool false => "false"
  | JNum z => itoa z
  | JStr s => dquote ++ s ++ dquote
  | JArr l => "[]interface {}{" ++ concat_with ", " (map gosyntax l) ++ "}"
  | JObj m => "map[string]interface {}{" ++
      concat_with ", " (map (fun kv => dquote ++ kv.1 ++ dquote ++ ":" ++ gosyntax kv.2) m)
      ++ "}"
  end.

(** [%v] of a value, as [fmt.Sprintf("%v", v)] renders it. *)
Fixpoint goplain (v : jval) : string :=
  match v with
  | JNull => "<nil>"
  | JBool true => "true"
  | JBool false => "false"
  | JNum z => itoa z
  | JStr s => s
  | JArr l => "[" ++ concat_with " " (map goplain l) ++ "]"
  | JObj m => "map[" ++ concat_with " " (map (fun kv => kv.1 ++ ":" ++ goplain kv.2) m) ++ "]"
  end.

(** [strings.Join] *)
Definition Join (l : list string) (sep : string) : string := concat_with sep l.

(* ------------------------------------------------------------------ *)
(** ** The data models of the file (lines 12-49) *)

Record IPInterfaceGetDataModelONTAP := {
  Name : string;     (* mapstructure:"name" *)
  Scope : string;    (* mapstructure:"scope" *)
  SVMName : string;  (* mapstructure:"svm.name" *)
  UUID : string      (* mapstructure:"uuid" *)
}.

(** The Go zero value of the struct. *)
Definition zero_get : IPInterfaceGetDataModelONTAP :=
  {| Name := ""; Scope := ""; SVMName := ""; UUID := "" |}.

(** [Vserver] is declared elsewhere in the package; its body shape
    [svm: {name}] is the one the spec gives. *)
Record Vserver := { VserverName : string (* mapstructure:"name" *) }.

Record IPInterfaceResourceIP := {
  Address : string;  (* mapstructure:"address" *)
  Netmask : Z        (* mapstructure:"netmask", int64 *)
}.

Record IPInterfaceResourceHomeNode := {
  HomeNodeName : string  (* mapstructure:"name" *)
}.

Record IPInterfaceResourceHomePort := {
  HomePortName : string;               (* mapstructure:"name" *)
  HomePortNode : IPInterfaceResourceHomeNode  (* mapstructure:"node" *)
}.

(** Pointer fields: [None] is the nil pointer. *)
Record IPInterfaceResourceLocation := {
  HomeNode : option IPInterfaceResourceHomeNode;  (* "home_node,omitempty" *)
  HomePort : option IPInterfaceResourceHomePort   (* "home_port,omitempty" *)
}.

Record IPInterfaceResourceBodyDataModelONTAP := {
  BodyName : string;                       (* mapstructure:"name" *)
  SVM : Vserver;                           (* mapstructure:"svm" *)
  IP : IPInterfaceResourceIP;              (* mapstructure:"ip" *)
  Location : IPInterfaceResourceLocation   (* mapstructure:"location" *)
}.

(* ------------------------------------------------------------------ *)
(** ** mapstructure.Decode *)

(** ASCII case folding. Go's [strings.EqualFold] folds Unicode (it also
    equates, say, the long s with s), so the two agree exactly when the
    keys compared are ASCII; see [ascii_key]. *)
Definition lower (c : ascii) : ascii :=
  let n := nat_of_ascii c in
  if (Nat.leb 65 n && Nat.leb n 90)%bool then ascii_of_nat (n + 32) else c.

Fixpoint EqualFold (a b : string) : bool :=
  match a, b with
  | EmptyString, EmptyString => true
  | String x a', String y b' => Ascii.eqb (lower x) (lower y) && EqualFold a' b'
  | _, _ => false
  end.

(** A key made of ASCII characters only. *)
Fixpoint ascii_key (k : string) : bool :=
  match k with
  | EmptyString => true
  | String c r => (Nat.ltb (nat_of_ascii c) 128 && ascii_key r)%bool
  end.

(** Go map index [m[k]] on a decoded object. *)
Fixpoint map_index (m : jobj) (k : string) : option jval :=
  match m with
  | [] => None
  | (k', v) :: r => if String.eqb k k' then Some v else map_index r k
  end.

(** The slower case-insensitive key search of [decodeStructFromMap]. *)
Fixpoint fold_index (m : jobj) (k : string) : option jval :=
  match m with
  | [] => None
  | (k', v) :: r => if EqualFold k' k then Some v else fold_index r k
  end.

(** The raw value [decodeStructFromMap] finds for a field tag: the exact
    key if present, otherwise a case-insensitive match. Go ranges over
    the map in random order, so when several keys match case-insensitively
    (and none exactly) the real choice is nondeterministic; the model takes
    the first in list order. *)
Definition field_value (m : jobj) (tag : string) : option jval :=
  match map_index m tag with
  | Some v => Some v
  | None => fold_index m tag
  end.

(** Go type name of a decoded JSON value (JSON numbers decode as float64). *)
Definition type_name (v : jval) : string :=
  match v with
  | JNull => "<nil>"
  | JBool _ => "bool"
  | JNum _ => "float64"
  | JStr _ => "string"
  | JArr _ => "[]interface {}"
  | JObj _ => "map[string]interface {}"
  end.

(** [decode] into a [string] field with the default config (no weak typing):
    a missing key or a nil value leaves the field at its current value, a
    string is stored, anything else is an error. *)
Definition decode_string (tag : string) (cur : string) (v : option jval)
  : string + string :=
  match v with
  | None | Some JNull => inr cur
  | Some (JStr s) => inr s
  | Some x => inl ("'" ++ tag ++ "' expected type 'string', got unconvertible type '"
                   ++ type_name x ++ "', value: '" ++ goplain x ++ "'")
  end.

(** [mapstructure.Decode(m, &dataONTAP)] into a zero
    [IPInterfaceGetDataModelONTAP]: every field is decoded, the errors of all
    fields are collected, and any error fails the whole decode. Keys that
    match no field (such as "ip") are ignored. *)
Definition decode_get (m : jobj) : string + IPInterfaceGetDataModelONTAP :=
  let rn := decode_string "name" "" (field_value m "name") in
  let rs := decode_string "scope" "" (field_value m "scope") in
  let rv := decode_string "svm.name" "" (field_value m "svm.name") in
  let ru := decode_string "uuid" "" (field_value m "uuid") in
  let errs := ((match rn with inl e => [e] | _ => [] end) ++
               (match rs with inl e => [e] | _ => [] end) ++
               (match rv with inl e => [e] | _ => [] end) ++
               (match ru with inl e => [e] | _ => [] end))%list in
  match rn, rs, rv, ru with
  | inr n, inr s, inr v, inr u =>
      inr {| Name := n; Scope := s; SVMName := v; UUID := u |}
  | _, _, _, _ =>
      inl (itoa (Z.of_nat (List.length errs)) ++ " error(s) decoding:" ++
           concat_with "" (map (fun e => " * " ++ e) errs))
  end.

(** [mapstructure.Decode(filter, &filterMap)]: a struct decoded into a
    [map[string]interface{}] gets one entry per field under its tag; the
    fields of [IPInterfaceGetDataModelONTAP] carry no omitempty, so zero
    fields are kept. This direction cannot fail for this struct. *)
Definition encode_get (f : IPInterfaceGetDataModelONTAP) : string + jobj :=
  inr [("name", JStr (Name f)); ("scope", JStr (Scope f));
       ("svm.name", JStr (SVMName f)); ("uuid", JStr (UUID f))].

Definition encode_home_node (n : IPInterfaceResourceHomeNode) : jobj :=
  [("name", JStr (HomeNodeName n))].

(** A non-nil pointer to a struct is encoded as the struct; an omitempty
    field holding a nil pointer is skipped. *)
Definition encode_location (l : IPInterfaceResourceLocation) : jobj :=
  ((match HomeNode l with
   | Some n => [("home_node", JObj (encode_home_node n))]
   | None => []
   end) ++
  (match HomePort l with
   | Some p => [("home_port", JObj [("name", JStr (HomePortName p));
                                    ("node", JObj (encode_home_node (HomePortNode p)))])]
   | None => []
   end))%list.

(** [mapstructure.Decode(body, &bodyMap)]: nested struct fields become
    nested maps; [Location] has no omitempty, so it is always present. *)
Definition encode_body (b : IPInterfaceResourceBodyDataModelONTAP) : string + jobj :=
  inr [("name", JStr (BodyName b));
       ("svm", JObj [("name", JStr (VserverName (SVM b)))]);
       ("ip", JObj [("address", JStr (Address (IP b))); ("netmask", JNum (Netmask (IP b)))]);
       ("location", JObj (encode_location (Location b)))].

(** [%#v] of the filter struct pointer. *)
Definition gosyntax_get (f : IPInterfaceGetDataModelONTAP) : string :=
  "&interfaces.IPInterfaceGetDataModelONTAP{Name:" ++ gosyntax (JStr (Name f)) ++
  ", Scope:" ++ gosyntax (JStr (Scope f)) ++ ", SVMName:" ++ gosyntax (JStr (SVMName f)) ++
  ", UUID:" ++ gosyntax (JStr (UUID f)) ++ "}".

(* ------------------------------------------------------------------ *)
(** ** Collaborators of the package [utils] and [restclient] *)

(** Modelled from the spec: [utils.ErrorHandler] (not part of the file): it
    holds the caller-visible diagnostics, and [MakeAndReportError] records a
    diagnostic with a short summary and a detail string and returns it as
    the error value. *)
Record ErrorHandler := { Diags : list (string * string) }.

Definition MakeAndReportError (eh : ErrorHandler) (summary detail : string)
  : ErrorHandler * go_error :=
  ({| Diags := (Diags eh ++ [(summary, detail)])%list |}, Diag summary detail).

(** Modelled from the spec: [restclient.RestQuery] (not part of the file),
    a query builder over [url.Values]: [Set] assigns a key, [Add] appends a
    value to a key, [Fields] selects the field list (comma-joined under
    "fields"), and [SetValues] assigns every key of a flattened mapping. *)
Abbreviation RestQuery := (gmap string (list string)).

Definition NewQuery : RestQuery := ∅.

Definition QSet (q : RestQuery) (k v : string) : RestQuery := <[k := [v]]> q.

Definition QAdd (q : RestQuery) (k v : string) : RestQuery :=
  <[k := (default [] (q !! k) ++ [v])%list]> q.

Definition QFields (q : RestQuery) (fields : list string) : RestQuery :=
  QSet q "fields" (Join fields ",").

Definition QSetValues (q : RestQuery) (values : jobj) : RestQuery :=
  fold_left (fun q kv => QSet q kv.1 (goplain kv.2)) values q.

(** Modelled from the spec: [restclient.RestResponse], the response of a
    create call, exposing its records collection. *)
Record RestResponse := { NumRecords : Z; Records : list jobj }.

(** [%#v] of the body. The pointers inside Location are printed by Go as
    addresses, which have no stable rendering; they are shown as [{...}]. *)
Definition gosyntax_body (b : IPInterfaceResourceBodyDataModelONTAP) : string :=
  "interfaces.IPInterfaceResourceBodyDataModelONTAP{Name:" ++ gosyntax (JStr (BodyName b)) ++
  ", SVM:interfaces.Vserver{Name:" ++ gosyntax (JStr (VserverName (SVM b))) ++
  "}, IP:interfaces.IPInterfaceResourceIP{Address:" ++ gosyntax (JStr (Address (IP b))) ++
  ", Netmask:" ++ itoa (Netmask (IP b)) ++ "}, Location:interfaces.IPInterfaceResourceLocation{...}}".

Definition gosyntax_response (r : RestResponse) : string :=
  "restclient.RestResponse{NumRecords:" ++ itoa (NumRecords r) ++ ", Records:[]map[string]interface {}{" ++
  concat_with ", " (map (fun m => gosyntax (JObj m)) (Records r)) ++ "}}".

(** Modelled from the spec: [restclient.RestClient]. Each call is a round
    trip to the remote system, whose state [S] it may change, and returns
    (status code, response, error); [None] is the nil error. *)
Record RestClient (S : Type) := {
  GetNilOrOneRecord : S -> string -> RestQuery -> S * (Z * option jobj * option go_error);
  GetZeroOrMoreRecords : S -> string -> RestQuery -> S * (Z * slice jobj * option go_error);
  CallCreateMethod : S -> string -> RestQuery -> jobj -> S * (Z * RestResponse * option go_error);
  CallDeleteMethod : S -> string -> S * (Z * RestResponse * option go_error)
}.
Arguments GetNilOrOneRecord {S} _ _ _ _.
Arguments GetZeroOrMoreRecords {S} _ _ _ _.
Arguments CallCreateMethod {S} _ _ _ _ _.
Arguments CallDeleteMethod {S} _ _ _.

(* ------------------------------------------------------------------ *)
(** ** The adapter (lines 51-143) *)

Definition api : string := "network/ip/interfaces".

Section Adapter.
Context {S : Type}.

(** Lines 54-62: the query of GetIPInterface. *)
Definition get_ip_interface_query (name svmName : string) : RestQuery :=
  let query := NewQuery in
  let query := QSet query "name" name in
  let query :=
    if String.eqb svmName "" then QSet query "scope" "cluster"
    else QSet (QSet query "svm.name" svmName) "scope" "svm" in
  QFields query ["name"; "svm.name"; "ip"; "scope"].

(** GetIPInterface: returns the new remote state, the error handler and
    the pair (result pointer, error). *)
Definition GetIPInterface (errorHandler : ErrorHandler) (r : RestClient S) (s : S)
    (name svmName : string)
  : S * ErrorHandler * (option IPInterfaceGetDataModelONTAP * option go_error) :=
  let query := get_ip_interface_query name svmName in
  let '(s, (statusCode, response, err)) := GetNilOrOneRecord r s api query in
  let err :=
    match err, response with
    | None, None => Some (GoErr ("no response for GET " ++ api))
    | _, _ => err
    end in
  match err with
  | Some e =>
      let '(eh, d) := MakeAndReportError errorHandler "error reading ip_interface info"
                        ("error on GET " ++ api ++ ": " ++ Error e ++ ", statusCode " ++ itoa statusCode) in
      (s, eh, (None, Some d))
  | None =>
      (* after the check above a nil error means a non-nil response *)
      let m := default [] response in
      match decode_get m with
      | inl e =>
          let '(eh, d) := MakeAndReportError errorHandler ("failed to decode response from GET " ++ api)
                            ("error: " ++ e ++ ", statusCode " ++ itoa statusCode ++ ", response " ++ gosyntax (JObj m)) in
          (s, eh, (None, Some d))
      | inr dataONTAP => (s, errorHandler, (Some dataONTAP, None))
      end
  end.

(** Lines 83-91: the query of GetIPInterfaces, or the encoding error. *)
Definition get_ip_interfaces_query (filter : option IPInterfaceGetDataModelONTAP)
  : string + RestQuery :=
  let query := QFields NewQuery ["name"; "svm.name"; "ip"; "scope"] in
  match filter with
  | None => inr query
  | Some f =>
      match encode_get f with
      | inl e => inl e
      | inr filterMap => inr (QSetValues query filterMap)
      end
  end.

(** Lines 100-108: the decoding loop, appending to [dataONTAP]. *)
Fixpoint decode_records (errorHandler : ErrorHandler) (statusCode : Z)
    (dataONTAP : slice IPInterfaceGetDataModelONTAP) (infos : list jobj)
  : ErrorHandler * (slice IPInterfaceGetDataModelONTAP * option go_error) :=
  match infos with
  | [] => (errorHandler, (dataONTAP, None))
  | info :: rest =>
      match decode_get info with
      | inl e =>
          let '(eh, d) := MakeAndReportError errorHandler ("failed to decode response from GET " ++ api)
                            ("error: " ++ e ++ ", statusCode " ++ itoa statusCode ++ ", info " ++ gosyntax (JObj info)) in
          (eh, (nil_slice, Some d))
      | inr record => decode_records errorHandler statusCode (append dataONTAP record) rest
      end
  end.

Definition GetIPInterfaces (errorHandler : ErrorHandler) (r : RestClient S) (s : S)
    (filter : option IPInterfaceGetDataModelONTAP)
  : S * ErrorHandler * (slice IPInterfaceGetDataModelONTAP * option go_error) :=
  match get_ip_interfaces_query filter with
  | inl e =>
      let f := match filter with Some f => f | None => zero_get end in
      let '(eh, d) := MakeAndReportError errorHandler "error encoding ip_interface filter info"
                        ("error on filter " ++ gosyntax_get f ++ ": " ++ e) in
      (s, eh, (nil_slice, Some d))
  | inr query =>
      let '(s, (statusCode, response, err)) := GetZeroOrMoreRecords r s api query in
      let err :=
        match err, response with
        | None, nil_slice => Some (GoErr ("no response for GET " ++ api))
        | _, _ => err
        end in
      match err with
      | Some e =>
          let '(eh, d) := MakeAndReportError errorHandler "error reading ip_interfaces info"
                            ("error on GET " ++ api ++ ": " ++ Error e ++ ", statusCode " ++ itoa statusCode) in
          (s, eh, (nil_slice, Some d))
      | None =>
          let '(eh, res) := decode_records errorHandler statusCode nil_slice (elems response) in
          (s, eh, res)
      end
  end.

(** Line 121: the query of CreateIPInterface. *)
Definition create_ip_interface_query : RestQuery := QAdd NewQuery "return_records" "true".

Definition CreateIPInterface (errorHandler : ErrorHandler) (r : RestClient S) (s : S)
    (body : IPInterfaceResourceBodyDataModelONTAP)
  : go_result (S * ErrorHandler * (option IPInterfaceGetDataModelONTAP * option go_error)) :=
  match encode_body body with
  | inl e =>
      let '(eh, d) := MakeAndReportError errorHandler "error encoding ip_interface body"
                        ("error on encoding " ++ api ++ " body: " ++ e ++ ", body: " ++ gosyntax_body body) in
      Ret (s, eh, (None, Some d))
  | inr bodyMap =>
      let query := create_ip_interface_query in
      let '(s, (statusCode, response, err)) := CallCreateMethod r s api query bodyMap in
      match err with
      | Some e =>
          let '(eh, d) := MakeAndReportError errorHandler "error creating ip_interface"
                            ("error on POST " ++ api ++ ": " ++ Error e ++ ", statusCode " ++ itoa statusCode) in
          Ret (s, eh, (None, Some d))
      | None =>
          (* response.Records[0] *)
          match Records response with
          | [] => Panic "runtime error: index out of range [0] with length 0"
          | r0 :: _ =>
              match decode_get r0 with
              | inl e =>
                  let '(eh, d) := MakeAndReportError errorHandler "error decoding ip_interface info"
                                    ("error on decode storage/ip_interfaces info: " ++ e ++ ", statusCode " ++
                                     itoa statusCode ++ ", response " ++ gosyntax_response response) in
                  Ret (s, eh, (None, Some d))
              | inr dataONTAP => Ret (s, errorHandler, (Some dataONTAP, None))
              end
          end
      end
  end.

Definition DeleteIPInterface (errorHandler : ErrorHandler) (r : RestClient S) (s : S) (uuid : string)
  : S * ErrorHandler * option go_error :=
  let '(s, (statusCode, _, err)) := CallDeleteMethod r s (api ++ "/" ++ uuid) in
  match err with
  | Some e =>
      let '(eh, d) := MakeAndReportError errorHandler "error deleting ip_interface"
                        ("error on DELETE " ++ api ++ ": " ++ Error e ++ ", statusCode " ++ itoa statusCode) in
      (s, eh, Some d)
  | None => (s, errorHandler, None)
  end.

End Adapter.

(* ------------------------------------------------------------------ *)
(** ** The remote system *)

(** Modelled from the spec: the remote management API behind
    [restclient.RestClient] (not part of the file). It stores interface
    records; a GET selects the records matching every query parameter except
    the projection ("fields"); the zero-or-one call rejects several matches
    as an error and reports no match as a nil response; DELETE on
    [network/ip/interfaces/{uuid}] removes the record, or fails when there is
    none; POST provisions a record and, with return_records=true, returns
    it in the records collection. *)
Record srv_record := {
  srv_uuid : string;
  srv_name : string;
  srv_svm : string;
  srv_scope : string;
  srv_address : string;
  srv_netmask : Z
}.

Abbreviation srv_state := (list srv_record).

Definition srv_field (r : srv_record) (k : string) : option string :=
  if String.eqb k "name" then Some (srv_name r)
  else if String.eqb k "svm.name" then Some (srv_svm r)
  else if String.eqb k "scope" then Some (srv_scope r)
  else if String.eqb k "uuid" then Some (srv_uuid r)
  else None.

Definition srv_param_ok (r : srv_record) (kv : string * list string) : bool :=
  if String.eqb kv.1 "fields" then true
  else if String.eqb kv.1 "return_records" then true
  else match srv_field r kv.1, kv.2 with
       | Some v, [w] => String.eqb v w
       | _, _ => false
       end.

Definition srv_match (q : RestQuery) (r : srv_record) : bool :=
  forallb (srv_param_ok r) (map_to_list q).

(** The JSON representation of a record (svm omitted for cluster scope). *)
Definition srv_json (r : srv_record) : jobj :=
  ([("uuid", JStr (srv_uuid r)); ("name", JStr (srv_name r)); ("scope", JStr (srv_scope r))] ++
   (if String.eqb (srv_svm r) "" then [] else [("svm", JObj [("name", JStr (srv_svm r))])]) ++
   [("ip", JObj [("address", JStr (srv_address r)); ("netmask", JNum (srv_netmask r))])])%list.

Definition empty_response : RestResponse := {| NumRecords := 0; Records := [] |}.

Definition srv_path_is (path : string) (r : srv_record) : bool :=
  String.eqb path (api ++ "/" ++ srv_uuid r).

Definition jstr_at (m : jobj) (k : string) : string :=
  match map_index m k with Some (JStr v) => v | _ => "" end.

Definition jnum_at (m : jobj) (k : string) : Z :=
  match map_index m k with Some (JNum v) => v | _ => 0%Z end.

Definition jobj_at (m : jobj) (k : string) : jobj :=
  match map_index m k with Some (JObj v) => v | _ => [] end.

Definition srv_of_body (uuid : string) (b : jobj) : srv_record :=
  let svm := jstr_at (jobj_at b "svm") "name" in
  {| srv_uuid := uuid; srv_name := jstr_at b "name"; srv_svm := svm;
     srv_scope := if String.eqb svm "" then "cluster" else "svm";
     srv_address := jstr_at (jobj_at b "ip") "address";
     srv_netmask := jnum_at (jobj_at b "ip") "netmask" |}.

Definition ontap : RestClient srv_state := {|
  GetNilOrOneRecord := fun s path q =>
    if String.eqb path api then
      match List.filter (srv_match q) s with
      | [] => (s, (200%Z, None, None))
      | [x] => (s, (200%Z, Some (srv_json x), None))
      | _ => (s, (200%Z, None, Some (GoErr "received more than one record")))
      end
    else (s, (404%Z, None, Some (GoErr "not found")));
  GetZeroOrMoreRecords := fun s path q =>
    if String.eqb path api then
      (s, (200%Z, mk_slice (map srv_json (List.filter (srv_match q) s)), None))
    else (s, (404%Z, nil_slice, Some (GoErr "not found")));
  CallCreateMethod := fun s path q body =>
    if String.eqb path api then
      let r := srv_of_body ("uuid-" ++ itoa (Z.of_nat (List.length s))) body in
      let recs := if bool_decide (q !! "return_records" = Some ["true"]) then [srv_json r] else [] in
      ((s ++ [r])%list, (201%Z, {| NumRecords := Z.of_nat (List.length recs); Records := recs |}, None))
    else (s, (404%Z, empty_response, Some (GoErr "not found")));
  CallDeleteMethod := fun s path =>
    if existsb (srv_path_is path) s then
      (List.filter (fun r => negb (srv_path_is path r)) s, (200%Z, empty_response, None))
    else (s, (404%Z, empty_response, Some (GoErr "entry doesn't exist")))
|}.

(** Concrete inputs. *)
Definition lif1 : srv_record :=
  {| srv_uuid := "u1"; srv_name := "lif1"; srv_svm := "vs1"; srv_scope := "svm";
     srv_address := "10.0.0.5"; srv_netmask := 24 |}.

Definition lif2 : srv_record :=
  {| srv_uuid := "u2"; srv_name := "lif2"; srv_svm := "vs1"; srv_scope := "svm";
     srv_address := "10.0.0.6"; srv_netmask := 24 |}.

Definition eh0 : ErrorHandler := {| Diags := [] |}.

Definition spec_lif1 : IPInterfaceResourceBodyDataModelONTAP :=
  {| BodyName := "lif1"; SVM := {| VserverName := "vs1" |};
     IP := {| Address := "10.0.0.5"; Netmask := 24 |};
     Location := {| HomeNode := None; HomePort := None |} |}.

(** A transport whose calls all succeed with fixed responses. *)
Definition canned (one : option jobj) (many : slice jobj) (created : RestResponse) : RestClient unit := {|
  GetNilOrOneRecord := fun s _ _ => (s, (200%Z, one, None));
  GetZeroOrMoreRecords := fun s _ _ => (s, (200%Z, many, None));
  CallCreateMethod := fun s _ _ _ => (s, (201%Z, created, None));
  CallDeleteMethod := fun s _ => (s, (200%Z, empty_response, None))
|}.

Definition bad_many : slice jobj :=
  mk_slice [srv_json lif1; [("name", JNum 7)]; srv_json lif1].

Definition filter_lif1 : IPInterfaceGetDataModelONTAP :=
  {| Name := "lif1"; Scope := ""; SVMName := ""; UUID := "" |}.

(** Responses with the address/mask data changed. *)

(** Rewrite the value of every key of a record that names the ip field
    (as mapstructure would match it: case-insensitively). *)
Definition reshape_ip (g : jval -> jval) (m : jobj) : jobj :=
  map (fun kv => if EqualFold kv.1 "ip" then (kv.1, g kv.2) else kv) m.

(** The transport [r], with the address/mask data of every record it
    returns to a read replaced through [g]. *)
Definition ip_client {S} (g : jval -> jval) (r : RestClient S) : RestClient S := {|
  GetNilOrOneRecord := fun s p q =>
    let '(s', (st, resp, err)) := GetNilOrOneRecord r s p q in
    (s', (st, option_map (reshape_ip g) resp, err));
  GetZeroOrMoreRecords := fun s p q =>
    let '(s', (st, resp, err)) := GetZeroOrMoreRecords r s p q in
    (s', (st, match resp with
              | nil_slice => nil_slice
              | mk_slice l => mk_slice (map (reshape_ip g) l)
              end, err));
  CallCreateMethod := CallCreateMethod r;
  CallDeleteMethod := CallDeleteMethod r
|}.

(* ================================================================== *)
(** * Properties *)

Example itoa_200 : itoa 200 = "200". Proof. reflexivity. Qed.
Example itoa_neg : itoa (-7) = "-7". Proof. reflexivity. Qed.

Example decode_get_ex :
  decode_get [("name", JStr "lif1"); ("ip", JObj [("address", JStr "10.0.0.5")]);
              ("SCOPE", JStr "svm"); ("uuid", JStr "u1")]
  = inr {| Name := "lif1"; Scope := "svm"; SVMName := ""; UUID := "u1" |}.
Proof. reflexivity. Qed.

Example decode_get_bad : exists e, decode_get [("name", JNum 5)] = inl e.
Proof. eexists. reflexivity. Qed.

Example get_lif1 :
  (GetIPInterface eh0 ontap [lif1] "lif1" "vs1").2 =
  (Some {| Name := "lif1"; Scope := "svm"; SVMName := ""; UUID := "u1" |}, None).
Proof. vm_compute. reflexivity. Qed.

Example get_lif1_cluster :
  (GetIPInterface eh0 ontap [lif1] "lif1" "").2.1 = None.
Proof. vm_compute. reflexivity. Qed.

Example create_lif1 :
  match CreateIPInterface eh0 ontap [] spec_lif1 with
  | Ret (_, _, (Some d, None)) => Name d = "lif1" /\ UUID d = "uuid-0"
  | _ => False
  end.
Proof. vm_compute. split; reflexivity. Qed.

(* ------------------------------------------------------------------ *)
(** ** Error paths *)

(** Every error get-one returns comes with a nil result and is the
    diagnostic just reported through MakeAndReportError. *)
Lemma GetIPInterface_error_reported {S} eh (r : RestClient S) s name svmName s' eh' res e :
  GetIPInterface eh r s name svmName = (s', eh', (res, Some e)) ->
  res = None /\ exists sm d, e = Diag sm d /\ Diags eh' = (Diags eh ++ [(sm, d)])%list.
Proof.
  unfold GetIPInterface.
  destruct (GetNilOrOneRecord r s api _) as [s1 [[st resp] err]].
  destruct err as [e0|], resp as [m|]; simpl;
    try (destruct (decode_get _)); intros H; inversion H; subst; eauto.
Qed.

(** The same for delete. *)
Lemma DeleteIPInterface_error_reported {S} eh (r : RestClient S) s uuid s' eh' e :
  DeleteIPInterface eh r s uuid = (s', eh', Some e) ->
  exists sm d, e = Diag sm d /\ Diags eh' = (Diags eh ++ [(sm, d)])%list.
Proof.
  unfold DeleteIPInterface.
  destruct (CallDeleteMethod r s _) as [s1 [[st resp] err]].
  destruct err; intros H; inversion H; subst; eauto.
Qed.

(** C1: every failure path of the four operations returns a nil result
    with a non-nil error made by MakeAndReportError. At the input below,
    a create whose transport call succeeds with an empty records
    collection, the operation returns nothing at all: it panics. *)
Theorem C1_create_empty_records_panics :
  CreateIPInterface eh0 (canned None nil_slice empty_response) tt spec_lif1 =
  Panic "runtime error: index out of range [0] with length 0".
Proof. reflexivity. Qed.

(** C2: when the create call succeeds (nil error) and its response has
    an empty records collection, create indexes [response.Records[0]] and
    faults with an index out of range instead of returning an error. *)
Theorem create_empty_records_faults {S} eh (r : RestClient S) s body bodyMap s' st resp :
  encode_body body = inr bodyMap ->
  CallCreateMethod r s api create_ip_interface_query bodyMap = (s', (st, resp, None)) ->
  Records resp = [] ->
  CreateIPInterface eh r s body = Panic "runtime error: index out of range [0] with length 0".
Proof.
  intros Henc Hcall Hrec. unfold CreateIPInterface.
  rewrite Henc, Hcall, Hrec. reflexivity.
Qed.

Lemma create_empty_records_faults_witness :
  encode_body spec_lif1 = inr (match encode_body spec_lif1 with inr m => m | inl _ => [] end) /\
  CallCreateMethod (canned None nil_slice empty_response) tt api create_ip_interface_query
    (match encode_body spec_lif1 with inr m => m | inl _ => [] end) = (tt, (201%Z, empty_response, None)) /\
  Records empty_response = [] /\
  CreateIPInterface eh0 (canned None nil_slice empty_response) tt spec_lif1 =
    Panic "runtime error: index out of range [0] with length 0".
Proof.
  split; [reflexivity|]. split; [reflexivity|]. split; [reflexivity|].
  apply (create_empty_records_faults eh0 (canned None nil_slice empty_response) tt spec_lif1
           (match encode_body spec_lif1 with inr m => m | inl _ => [] end) tt 201%Z empty_response);
    reflexivity.
Defined.

(** C4: when GetNilOrOneRecord answers with a nil response and a nil
    error, get-one returns a nil result with a non-nil error (the
    reported "error reading ip_interface info" diagnostic); it never
    returns the nil-result/nil-error pair. *)
Theorem get_one_nil_response_is_error {S} eh (r : RestClient S) s name svmName s' st :
  GetNilOrOneRecord r s api (get_ip_interface_query name svmName) = (s', (st, None, None)) ->
  (GetIPInterface eh r s name svmName).2 =
    (None, Some (Diag "error reading ip_interface info"
                  ("error on GET " ++ api ++ ": no response for GET " ++ api ++ ", statusCode " ++ itoa st))).
Proof. intros H. unfold GetIPInterface. rewrite H. reflexivity. Qed.

Lemma get_one_nil_response_is_error_witness :
  GetNilOrOneRecord ontap [] api (get_ip_interface_query "lif1" "vs1") = ([], (200%Z, None, None)) /\
  (GetIPInterface eh0 ontap [] "lif1" "vs1").2 =
    (None, Some (Diag "error reading ip_interface info"
                  ("error on GET " ++ api ++ ": no response for GET " ++ api ++ ", statusCode " ++ itoa 200))).
Proof.
  split; [vm_compute; reflexivity|].
  apply get_one_nil_response_is_error with (s' := []). vm_compute. reflexivity.
Defined.

(* ------------------------------------------------------------------ *)
(** ** Delete, then read *)

Lemma filter_comm {A} (p q : A -> bool) (l : list A) :
  List.filter p (List.filter q l) = List.filter q (List.filter p l).
Proof.
  induction l as [|x l IH]; simpl; [reflexivity|].
  destruct (q x) eqn:Hq, (p x) eqn:Hp; simpl; rewrite ?Hq, ?Hp, IH; reflexivity.
Qed.

Lemma srv_path_is_self x : srv_path_is (api ++ "/" ++ srv_uuid x) x = true.
Proof. unfold srv_path_is. apply String.eqb_refl. Qed.

(** C3, counterexample: [lif1] is deleted by its uuid without error, and
    the following get-one of the same name and svm does not return the
    nil-result/nil-error pair. *)
Lemma delete_then_get_C3_counterexample :
  DeleteIPInterface eh0 ontap [lif1] "u1" = ([], eh0, None) /\
  (GetIPInterface eh0 ontap [] "lif1" "vs1").2 <> (None, None).
Proof. split; [vm_compute; reflexivity | vm_compute; discriminate]. Qed.

(** C3, as the code behaves: after delete(uuid) succeeds on the record
    that was the only match of a name and svm, get-one of that name and
    svm returns a nil result with the "no response" error reported as
    "error reading ip_interface info", not a stale record. *)
Theorem delete_then_get_reports_error eh (s : srv_state) (x : srv_record) name svmName s1 eh1 :
  List.filter (srv_match (get_ip_interface_query name svmName)) s = [x] ->
  DeleteIPInterface eh ontap s (srv_uuid x) = (s1, eh1, None) ->
  (GetIPInterface eh1 ontap s1 name svmName).2 =
    (None, Some (Diag "error reading ip_interface info"
                  ("error on GET " ++ api ++ ": no response for GET " ++ api ++ ", statusCode " ++ itoa 200))).
Proof.
  intros Hmatch Hdel. unfold DeleteIPInterface in Hdel. simpl in Hdel.
  destruct (existsb _ s) eqn:Hex; inversion Hdel; subst; clear Hdel.
  unfold GetIPInterface. simpl.
  rewrite filter_comm, Hmatch. simpl. rewrite srv_path_is_self. simpl.
  reflexivity.
Qed.

Lemma delete_then_get_reports_error_witness :
  List.filter (srv_match (get_ip_interface_query "lif1" "vs1")) [lif1] = [lif1] /\
  DeleteIPInterface eh0 ontap [lif1] (srv_uuid lif1) = ([], eh0, None) /\
  (GetIPInterface eh0 ontap [] "lif1" "vs1").2 =
    (None, Some (Diag "error reading ip_interface info"
                  ("error on GET " ++ api ++ ": no response for GET " ++ api ++ ", statusCode " ++ itoa 200))).
Proof.
  split; [vm_compute; reflexivity|]. split; [vm_compute; reflexivity|].
  apply (delete_then_get_reports_error eh0 [lif1] lif1 "lif1" "vs1"); vm_compute; reflexivity.
Defined.

(* ------------------------------------------------------------------ *)
(** ** get-many *)

Lemma decode_records_ok eh st (acc : slice IPInterfaceGetDataModelONTAP) l ds :
  Forall2 (fun m d => decode_get m = inr d) l ds ->
  decode_records eh st acc l = (eh, (fold_left append ds acc, None)).
Proof.
  intros H. revert acc. induction H as [|m d l ds Hd _ IH]; intros acc; simpl; [reflexivity|].
  rewrite Hd. apply IH.
Qed.

Lemma fold_append_nil (ds : list IPInterfaceGetDataModelONTAP) acc :
  fold_left append ds (mk_slice acc) = mk_slice (acc ++ ds)%list.
Proof.
  revert acc. induction ds as [|d ds IH]; intros acc; simpl.
  - by rewrite app_nil_r.
  - rewrite IH. by rewrite <- app_assoc.
Qed.

Lemma decode_records_fail eh st (acc : slice IPInterfaceGetDataModelONTAP) l :
  (exists m e, In m l /\ decode_get m = inl e) ->
  exists eh' d, decode_records eh st acc l = (eh', (nil_slice, Some d)).
Proof.
  revert eh acc. induction l as [|m l IH]; intros eh acc [m' [e [Hin He]]]; [destruct Hin|].
  simpl. destruct (decode_get m) eqn:Hm.
  - do 2 eexists. reflexivity.
  - destruct Hin as [->|Hin]; [congruence|]. apply IH. eauto.
Qed.

(** C5, counterexample: with no record on the server, the transport
    answers a non-nil empty list, and get-many returns the nil slice, not
    an empty non-nil one. *)
Lemma get_many_empty_C5_counterexample :
  GetZeroOrMoreRecords ontap [] api (QFields NewQuery ["name"; "svm.name"; "ip"; "scope"]) =
    ([], (200%Z, mk_slice [], None)) /\
  (GetIPInterfaces eh0 ontap [] None).2 = (nil_slice, None) /\
  (GetIPInterfaces eh0 ontap [] None).2 <> (mk_slice [], None).
Proof. split; [vm_compute; reflexivity|]. split; [vm_compute; reflexivity | vm_compute; discriminate]. Qed.

(** C5, as the code behaves: when the transport answers a nil list with
    no error, get-many fails with a non-nil error; when it answers a
    non-nil list whose records all decode, get-many returns nil error and
    the decoded records in the server's order, as a nil slice when the
    list is empty. *)
Theorem get_many_order_and_empty {S} eh (r : RestClient S) s filter query s' st resp :
  get_ip_interfaces_query filter = inr query ->
  GetZeroOrMoreRecords r s api query = (s', (st, resp, None)) ->
  (resp = nil_slice -> exists d, (GetIPInterfaces eh r s filter).2 = (nil_slice, Some d)) /\
  (forall l ds, resp = mk_slice l -> Forall2 (fun m d => decode_get m = inr d) l ds ->
     (GetIPInterfaces eh r s filter).2 =
       (match ds with [] => nil_slice | _ => mk_slice ds end, None)).
Proof.
  intros Hq Hcall. unfold GetIPInterfaces. rewrite Hq, Hcall. split.
  - intros ->. eexists. reflexivity.
  - intros l ds -> Hds. simpl. rewrite (decode_records_ok _ _ _ _ _ Hds).
    destruct ds as [|d ds]; [reflexivity|]. simpl. by rewrite fold_append_nil.
Qed.

Lemma get_many_order_and_empty_witness :
  (GetIPInterfaces eh0 ontap [lif2; lif1] None).2 =
    (mk_slice [{| Name := "lif2"; Scope := "svm"; SVMName := ""; UUID := "u2" |};
               {| Name := "lif1"; Scope := "svm"; SVMName := ""; UUID := "u1" |}], None) /\
  (GetIPInterfaces eh0 ontap [] None).2 = (nil_slice, None) /\
  exists d, (GetIPInterfaces eh0 (canned None nil_slice empty_response) tt None).2 = (nil_slice, Some d).
Proof.
  split; [|split].
  - destruct (get_many_order_and_empty eh0 ontap [lif2; lif1] None
                (QFields NewQuery ["name"; "svm.name"; "ip"; "scope"]) [lif2; lif1] 200%Z
                (mk_slice [srv_json lif2; srv_json lif1])) as [_ H]; [reflexivity | vm_compute; reflexivity |].
    apply (H [srv_json lif2; srv_json lif1]
             [{| Name := "lif2"; Scope := "svm"; SVMName := ""; UUID := "u2" |};
              {| Name := "lif1"; Scope := "svm"; SVMName := ""; UUID := "u1" |}]); [reflexivity|].
    repeat constructor.
  - destruct (get_many_order_and_empty eh0 ontap [] None
                (QFields NewQuery ["name"; "svm.name"; "ip"; "scope"]) [] 200%Z
                (mk_slice [])) as [_ H]; [reflexivity | vm_compute; reflexivity |].
    apply (H [] []); [reflexivity | constructor].
  - destruct (get_many_order_and_empty eh0 (canned None nil_slice empty_response) tt None
                (QFields NewQuery ["name"; "svm.name"; "ip"; "scope"]) tt 200%Z
                nil_slice) as [H _]; [reflexivity | reflexivity |].
    apply H. reflexivity.
Defined.

(** C6: when some record of a get-many response fails to decode, the
    whole call returns a nil result with a non-nil error; no partial
    sequence is returned. *)
Theorem get_many_decode_failure_all_or_nothing {S} eh (r : RestClient S) s filter query s' st l :
  get_ip_interfaces_query filter = inr query ->
  GetZeroOrMoreRecords r s api query = (s', (st, mk_slice l, None)) ->
  (exists m e, In m l /\ decode_get m = inl e) ->
  exists d, (GetIPInterfaces eh r s filter).2 = (nil_slice, Some d).
Proof.
  intros Hq Hcall Hbad. unfold GetIPInterfaces. rewrite Hq, Hcall. simpl.
  destruct (decode_records_fail eh st nil_slice l Hbad) as [eh' [d Hd]].
  rewrite Hd. eauto.
Qed.

Lemma get_many_decode_failure_all_or_nothing_witness :
  get_ip_interfaces_query None = inr (QFields NewQuery ["name"; "svm.name"; "ip"; "scope"]) /\
  GetZeroOrMoreRecords (canned None bad_many empty_response) tt api
    (QFields NewQuery ["name"; "svm.name"; "ip"; "scope"]) = (tt, (200%Z, bad_many, None)) /\
  (exists m e, In m (elems bad_many) /\ decode_get m = inl e) /\
  exists d, (GetIPInterfaces eh0 (canned None bad_many empty_response) tt None).2 = (nil_slice, Some d).
Proof.
  assert (Hbad : exists m e, In m (elems bad_many) /\ decode_get m = inl e).
  { exists [("name", JNum 7)]. eexists. split; [simpl; tauto | reflexivity]. }
  split; [reflexivity|]. split; [reflexivity|]. split; [exact Hbad|].
  apply (get_many_decode_failure_all_or_nothing eh0 (canned None bad_many empty_response) tt None
           (QFields NewQuery ["name"; "svm.name"; "ip"; "scope"]) tt 200%Z (elems bad_many)); [reflexivity | reflexivity | exact Hbad].
Defined.

(* ------------------------------------------------------------------ *)
(** ** Queries *)

(** C7, counterexample: a filter that only sets the name still sends
    scope, svm.name and uuid as empty-string query parameters. *)
Lemma filter_zero_fields_C7_counterexample :
  exists q, get_ip_interfaces_query (Some filter_lif1) = inr q /\
    q !! "scope" = Some [""] /\ q !! "svm.name" = Some [""] /\ q !! "uuid" = Some [""].
Proof. eexists. split; [reflexivity|]. vm_compute. auto. Qed.

(** C7, as the code behaves: a non-nil filter is flattened field by
    field, zero-valued fields included, and every field is assigned into
    the query next to the field projection. *)
Theorem filter_all_fields_sent (f : IPInterfaceGetDataModelONTAP) :
  exists q, get_ip_interfaces_query (Some f) = inr q /\
    q !! "name" = Some [Name f] /\ q !! "scope" = Some [Scope f] /\
    q !! "svm.name" = Some [SVMName f] /\ q !! "uuid" = Some [UUID f] /\
    q !! "fields" = Some ["name,svm.name,ip,scope"].
Proof.
  eexists. split; [reflexivity|].
  unfold QSetValues, QFields, QSet, NewQuery. simpl.
  repeat split; simplify_map_eq; reflexivity.
Qed.

(** C9: get-one(name, "") queries name=<name>, scope=cluster and no
    svm.name; get-one(name, c) with c non-empty queries name=<name>,
    svm.name=<c> and scope=svm; both select exactly the projection
    name, svm.name, ip, scope, and set nothing else. *)
Theorem get_one_query_shape (name c : string) :
  get_ip_interface_query name c =
  if String.eqb c "" then
    {[ "name" := [name]; "scope" := ["cluster"]; "fields" := ["name,svm.name,ip,scope"] ]}
  else
    {[ "name" := [name]; "svm.name" := [c]; "scope" := ["svm"];
       "fields" := ["name,svm.name,ip,scope"] ]}.
Proof.
  unfold get_ip_interface_query, QFields, QSet, NewQuery. simpl.
  destruct (String.eqb c "");
    apply map_eq; intros k; rewrite ?lookup_insert, ?lookup_singleton, ?lookup_empty;
    repeat case_decide; subst; simpl; try congruence; reflexivity.
Qed.

Example get_one_query_vs1 :
  get_ip_interface_query "lif1" "vs1" !! "svm.name" = Some ["vs1"].
Proof. reflexivity. Qed.

(* ------------------------------------------------------------------ *)
(** ** Create *)

(** C8, counterexample: the specification lif1/vs1/10.0.0.5/24 with no
    placement is flattened with a location key, mapped to an empty
    object. *)
Lemma create_body_location_C8_counterexample :
  exists m, encode_body spec_lif1 = inr m /\ map_index m "location" = Some (JObj []).
Proof. eexists. split; reflexivity. Qed.

(** C8, as the code behaves: with neither home-node nor home-port set,
    the flattened body holds name, svm {name}, ip {address, netmask} and
    location = {} (home_node and home_port omitted inside it); when the
    create call succeeds and its response has a first record, create
    returns that record decoded, whose name is the specification's name
    whenever that record carries it. *)
Theorem create_no_placement_body_and_result {S} eh (r : RestClient S) s b s' st resp r0 rest d :
  HomeNode (Location b) = None -> HomePort (Location b) = None ->
  CallCreateMethod r s api create_ip_interface_query
    [("name", JStr (BodyName b)); ("svm", JObj [("name", JStr (VserverName (SVM b)))]);
     ("ip", JObj [("address", JStr (Address (IP b))); ("netmask", JNum (Netmask (IP b)))]);
     ("location", JObj [])] = (s', (st, resp, None)) ->
  Records resp = r0 :: rest -> decode_get r0 = inr d ->
  encode_body b = inr
    [("name", JStr (BodyName b)); ("svm", JObj [("name", JStr (VserverName (SVM b)))]);
     ("ip", JObj [("address", JStr (Address (IP b))); ("netmask", JNum (Netmask (IP b)))]);
     ("location", JObj [])] /\
  CreateIPInterface eh r s b = Ret (s', eh, (Some d, None)) /\
  (map_index r0 "name" = Some (JStr (BodyName b)) -> Name d = BodyName b).
Proof.
  intros Hn Hp Hcall Hrec Hd.
  assert (Henc : encode_body b = inr
    [("name", JStr (BodyName b)); ("svm", JObj [("name", JStr (VserverName (SVM b)))]);
     ("ip", JObj [("address", JStr (Address (IP b))); ("netmask", JNum (Netmask (IP b)))]);
     ("location", JObj [])]).
  { unfold encode_body, encode_location. rewrite Hn, Hp. reflexivity. }
  split; [exact Henc|]. split.
  - unfold CreateIPInterface. rewrite Henc, Hcall, Hrec, Hd. reflexivity.
  - intros Hname. unfold decode_get, field_value in Hd. rewrite Hname in Hd. simpl in Hd.
    destruct (decode_string "scope" _ _), (decode_string "svm.name" _ _),
             (decode_string "uuid" _ _); inversion Hd; reflexivity.
Qed.

Lemma create_no_placement_body_and_result_witness :
  let r0 := srv_json (srv_of_body "uuid-0"
              (match encode_body spec_lif1 with inr m => m | inl _ => [] end)) in
  HomeNode (Location spec_lif1) = None /\ HomePort (Location spec_lif1) = None /\
  CallCreateMethod ontap [] api create_ip_interface_query
    [("name", JStr "lif1"); ("svm", JObj [("name", JStr "vs1")]);
     ("ip", JObj [("address", JStr "10.0.0.5"); ("netmask", JNum 24)]);
     ("location", JObj [])] =
    ([srv_of_body "uuid-0" (match encode_body spec_lif1 with inr m => m | inl _ => [] end)],
     (201%Z, {| NumRecords := 1; Records := [r0] |}, None)) /\
  Records {| NumRecords := 1; Records := [r0] |} = r0 :: [] /\
  decode_get r0 = inr {| Name := "lif1"; Scope := "svm"; SVMName := ""; UUID := "uuid-0" |} /\
  CreateIPInterface eh0 ontap [] spec_lif1 =
    Ret ([srv_of_body "uuid-0" (match encode_body spec_lif1 with inr m => m | inl _ => [] end)], eh0,
         (Some {| Name := "lif1"; Scope := "svm"; SVMName := ""; UUID := "uuid-0" |}, None)).
Proof.
  intros r0.
  split; [reflexivity|]. split; [reflexivity|]. split; [vm_compute; reflexivity|].
  split; [reflexivity|]. split; [vm_compute; reflexivity|].
  apply (create_no_placement_body_and_result eh0 ontap [] spec_lif1 _ 201%Z
           {| NumRecords := 1; Records := [r0] |} r0 []); vm_compute; reflexivity.
Defined.

(* ------------------------------------------------------------------ *)
(** ** The ip field of read responses *)

Lemma EqualFold_length a b : EqualFold a b = true -> String.length a = String.length b.
Proof.
  revert b. induction a as [|x a IH]; intros [|y b]; simpl; try discriminate; [reflexivity|].
  intros H. apply andb_prop in H as [_ H]. f_equal. by apply IH.
Qed.

Lemma field_value_reshape_ip g m tag :
  String.length tag <> 2 -> field_value (reshape_ip g m) tag = field_value m tag.
Proof.
  intros Hlen.
  assert (Hk : forall k, EqualFold k "ip" = true -> String.eqb tag k = false /\ EqualFold k tag = false).
  { intros k Hk. apply EqualFold_length in Hk. simpl in Hk. split.
    - apply String.eqb_neq. intros ->. lia.
    - destruct (EqualFold k tag) eqn:E; [|reflexivity].
      apply EqualFold_length in E. lia. }
  assert (Hi : map_index (reshape_ip g m) tag = map_index m tag).
  { induction m as [|[k v] m IH]; simpl; [reflexivity|].
    destruct (EqualFold k "ip") eqn:E; simpl.
    - destruct (Hk k E) as [-> _]. exact IH.
    - destruct (String.eqb tag k); [reflexivity | exact IH]. }
  assert (Hf : fold_index (reshape_ip g m) tag = fold_index m tag).
  { clear Hi. induction m as [|[k v] m IH]; simpl; [reflexivity|].
    destruct (EqualFold k "ip") eqn:E; simpl.
    - destruct (Hk k E) as [_ ->]. exact IH.
    - destruct (EqualFold k tag); [reflexivity | exact IH]. }
  unfold field_value. by rewrite Hi, Hf.
Qed.

(** Decoding a record into [IPInterfaceGetDataModelONTAP] does not look
    at the ip field. *)
Lemma decode_get_reshape_ip g m : decode_get (reshape_ip g m) = decode_get m.
Proof.
  unfold decode_get.
  rewrite !field_value_reshape_ip; simpl; try lia. reflexivity.
Qed.

Lemma decode_records_reshape_ip g eh st acc l :
  (decode_records eh st acc (map (reshape_ip g) l)).2.1 = (decode_records eh st acc l).2.1.
Proof.
  revert eh acc. induction l as [|m l IH]; intros eh acc; simpl; [reflexivity|].
  rewrite decode_get_reshape_ip. destruct (decode_get m); [reflexivity | apply IH].
Qed.

Lemma get_one_reshape_ip {S} (g : jval -> jval) eh (r : RestClient S) s name svmName :
  (GetIPInterface eh (ip_client g r) s name svmName).1.1 = (GetIPInterface eh r s name svmName).1.1 /\
  (GetIPInterface eh (ip_client g r) s name svmName).2.1 = (GetIPInterface eh r s name svmName).2.1.
Proof.
  unfold GetIPInterface. simpl.
  destruct (GetNilOrOneRecord r s api _) as [s1 [[st1 resp1] err1]].
  destruct err1 as [e1|], resp1 as [m|]; simpl; try rewrite decode_get_reshape_ip;
    try destruct (decode_get m); simpl; split; reflexivity.
Qed.

Lemma get_many_reshape_ip {S} (g : jval -> jval) eh (r : RestClient S) s filter :
  (GetIPInterfaces eh (ip_client g r) s filter).1.1 = (GetIPInterfaces eh r s filter).1.1 /\
  (GetIPInterfaces eh (ip_client g r) s filter).2.1 = (GetIPInterfaces eh r s filter).2.1.
Proof.
  unfold GetIPInterfaces. simpl.
  destruct (get_ip_interfaces_query filter) as [e|q]; simpl; [split; reflexivity|].
  destruct (GetZeroOrMoreRecords r s api q) as [s2 [[st2 resp2] err2]].
  destruct err2, resp2 as [|l]; simpl; try (split; reflexivity).
  pose proof (decode_records_reshape_ip g eh st2 nil_slice l) as Hr.
  destruct (decode_records eh st2 nil_slice (map (reshape_ip g) l)) as [eha ra].
  destruct (decode_records eh st2 nil_slice l) as [ehb rb].
  simpl in *. split; [reflexivity | exact Hr].
Qed.

(** C10: the read result type keeps only name, scope, svm.name and uuid,
    so the results of get-one and get-many do not depend on the
    address/mask data the server returns: whatever the server puts under
    ip, the returned records (and the remote state) are the same. *)
Theorem read_results_ignore_ip {S} (g : jval -> jval) eh (r : RestClient S) s name svmName filter :
  (GetIPInterface eh (ip_client g r) s name svmName).1.1 = (GetIPInterface eh r s name svmName).1.1 /\
  (GetIPInterface eh (ip_client g r) s name svmName).2.1 = (GetIPInterface eh r s name svmName).2.1 /\
  (GetIPInterfaces eh (ip_client g r) s filter).1.1 = (GetIPInterfaces eh r s filter).1.1 /\
  (GetIPInterfaces eh (ip_client g r) s filter).2.1 = (GetIPInterfaces eh r s filter).2.1.
Proof.
  destruct (get_one_reshape_ip g eh r s name svmName) as [H1 H2].
  destruct (get_many_reshape_ip g eh r s filter) as [H3 H4].
  auto.
Qed.

(* ------------------------------------------------------------------ *)
(** ** Further behaviour of the adapter *)

Lemma decode_records_accounting eh st acc l :
  match decode_records eh st acc l with
  | (eh', (res, Some e)) => res = nil_slice /\
      exists sm d, e = Diag sm d /\ Diags eh' = (Diags eh ++ [(sm, d)])%list
  | (eh', (_, None)) => eh' = eh
  end.
Proof.
  revert acc. induction l as [|m l IH]; intros acc; simpl; [reflexivity|].
  destruct (decode_get m); simpl; [split; eauto | apply IH].
Qed.

(** X1: whenever one of the four operations returns, it has reported a
    diagnostic exactly when it fails: on error the returned error is the
    diagnostic appended last to the error handler (and get-one, get-many
    and create return a nil result); on success the error handler is
    left unchanged. Create may instead panic, reporting nothing, and does
    so only when its transport call succeeded with an empty records
    collection. *)
Theorem error_accounting {S} eh (r : RestClient S) s name svmName filter body uuid :
  match GetIPInterface eh r s name svmName with
  | (_, eh', (res, Some e)) => res = None /\
      exists sm d, e = Diag sm d /\ Diags eh' = (Diags eh ++ [(sm, d)])%list
  | (_, eh', (_, None)) => eh' = eh
  end /\
  match GetIPInterfaces eh r s filter with
  | (_, eh', (res, Some e)) => res = nil_slice /\
      exists sm d, e = Diag sm d /\ Diags eh' = (Diags eh ++ [(sm, d)])%list
  | (_, eh', (_, None)) => eh' = eh
  end /\
  match CreateIPInterface eh r s body with
  | Ret (_, eh', (res, Some e)) => res = None /\
      exists sm d, e = Diag sm d /\ Diags eh' = (Diags eh ++ [(sm, d)])%list
  | Ret (_, eh', (_, None)) => eh' = eh
  | Panic _ => exists s' st resp,
      CallCreateMethod r s api create_ip_interface_query
        (match encode_body body with inr m => m | inl _ => [] end) = (s', (st, resp, None)) /\
      Records resp = []
  end /\
  match DeleteIPInterface eh r s uuid with
  | (_, eh', Some e) => exists sm d, e = Diag sm d /\ Diags eh' = (Diags eh ++ [(sm, d)])%list
  | (_, eh', None) => eh' = eh
  end.
Proof.
  split; [|split; [|split]].
  - unfold GetIPInterface.
    destruct (GetNilOrOneRecord r s api _) as [s1 [[st resp] err]].
    destruct err as [e0|], resp as [m|]; simpl;
      try destruct (decode_get _); simpl; eauto.
  - unfold GetIPInterfaces.
    destruct (get_ip_interfaces_query filter) as [e|q]; simpl; [eauto|].
    destruct (GetZeroOrMoreRecords r s api q) as [s1 [[st resp] err]].
    destruct err as [e0|], resp as [|l]; simpl; eauto;
      pose proof (decode_records_accounting eh st nil_slice l) as H;
      destruct (decode_records eh st nil_slice l) as [eh' [res [e|]]]; exact H.
  - unfold CreateIPInterface. simpl.
    destruct (CallCreateMethod r s api _ _) as [s1 [[st resp] err]] eqn:Hc.
    destruct err as [e0|]; simpl; eauto.
    destruct (Records resp) as [|r0 rest] eqn:Hr; simpl; [eauto|].
    destruct (decode_get r0); simpl; eauto.
  - unfold DeleteIPInterface.
    destruct (CallDeleteMethod r s _) as [s1 [[st resp] err]].
    destruct err; simpl; eauto.
Qed.

(** X2: get-one returns exactly one of a non-nil result and a non-nil
    error. *)
Theorem get_one_result_xor_error {S} eh (r : RestClient S) s name svmName :
  let '(res, err) := (GetIPInterface eh r s name svmName).2 in
  (res = None <-> err <> None).
Proof.
  unfold GetIPInterface.
  destruct (GetNilOrOneRecord r s api _) as [s1 [[st resp] err]].
  destruct err as [e0|], resp as [m|]; simpl;
    try destruct (decode_get _); simpl; split; congruence.
Qed.

(** X3: when create returns (does not panic), it returns exactly one of
    a non-nil result and a non-nil error. *)
Theorem create_result_xor_error {S} eh (r : RestClient S) s body :
  match CreateIPInterface eh r s body with
  | Ret (_, _, (res, err)) => (res = None <-> err <> None)
  | Panic _ => True
  end.
Proof.
  unfold CreateIPInterface. simpl.
  destruct (CallCreateMethod r s api _ _) as [s1 [[st resp] err]].
  destruct err as [e0|]; simpl; [split; congruence|].
  destruct (Records resp) as [|r0 rest]; simpl; [exact I|].
  destruct (decode_get r0); simpl; split; congruence.
Qed.

(** X4: a transport error of get-one is reported as "error reading
    ip_interface info" with its message and status code, whatever
    response came with it. *)
Theorem get_one_transport_error {S} eh (r : RestClient S) s name svmName s' st resp e :
  GetNilOrOneRecord r s api (get_ip_interface_query name svmName) = (s', (st, resp, Some e)) ->
  GetIPInterface eh r s name svmName =
    (s', {| Diags := app (Diags eh) [("error reading ip_interface info",
                        "error on GET " ++ api ++ ": " ++ Error e ++ ", statusCode " ++ itoa st)] |},
     (None, Some (Diag "error reading ip_interface info"
                   ("error on GET " ++ api ++ ": " ++ Error e ++ ", statusCode " ++ itoa st)))).
Proof. intros H. unfold GetIPInterface. rewrite H. destruct resp; reflexivity. Qed.

Definition failing_client : RestClient unit := {|
  GetNilOrOneRecord := fun s _ _ => (s, (500%Z, Some (srv_json lif1), Some (GoErr "timeout")));
  GetZeroOrMoreRecords := fun s _ _ => (s, (500%Z, mk_slice [srv_json lif1], Some (GoErr "timeout")));
  CallCreateMethod := fun s _ _ _ => (s, (400%Z, empty_response, Some (GoErr "duplicate entry")));
  CallDeleteMethod := fun s _ => (s, (404%Z, empty_response, Some (GoErr "entry doesn't exist")))
|}.

Lemma get_one_transport_error_witness :
  GetNilOrOneRecord failing_client tt api (get_ip_interface_query "lif1" "") =
    (tt, (500%Z, Some (srv_json lif1), Some (GoErr "timeout"))) /\
  GetIPInterface eh0 failing_client tt "lif1" "" =
    (tt, {| Diags := app (Diags eh0) [("error reading ip_interface info",
                        "error on GET " ++ api ++ ": " ++ Error (GoErr "timeout") ++ ", statusCode " ++ itoa 500)] |},
     (None, Some (Diag "error reading ip_interface info"
                   ("error on GET " ++ api ++ ": " ++ Error (GoErr "timeout") ++ ", statusCode " ++ itoa 500)))).
Proof.
  split; [reflexivity|].
  apply (get_one_transport_error eh0 failing_client tt "lif1" "" tt 500%Z (Some (srv_json lif1))).
  reflexivity.
Defined.

(** X5: a transport error of get-many is reported as "error reading
    ip_interfaces info" with its message and status code, and no record
    of the response is returned or decoded. *)
Theorem get_many_transport_error {S} eh (r : RestClient S) s filter query s' st resp e :
  get_ip_interfaces_query filter = inr query ->
  GetZeroOrMoreRecords r s api query = (s', (st, resp, Some e)) ->
  GetIPInterfaces eh r s filter =
    (s', {| Diags := app (Diags eh) [("error reading ip_interfaces info",
                        "error on GET " ++ api ++ ": " ++ Error e ++ ", statusCode " ++ itoa st)] |},
     (nil_slice, Some (Diag "error reading ip_interfaces info"
                        ("error on GET " ++ api ++ ": " ++ Error e ++ ", statusCode " ++ itoa st)))).
Proof. intros Hq H. unfold GetIPInterfaces. rewrite Hq, H. destruct resp; reflexivity. Qed.

Lemma get_many_transport_error_witness :
  get_ip_interfaces_query None = inr (QFields NewQuery ["name"; "svm.name"; "ip"; "scope"]) /\
  GetZeroOrMoreRecords failing_client tt api (QFields NewQuery ["name"; "svm.name"; "ip"; "scope"]) =
    (tt, (500%Z, mk_slice [srv_json lif1], Some (GoErr "timeout"))) /\
  GetIPInterfaces eh0 failing_client tt None =
    (tt, {| Diags := app (Diags eh0) [("error reading ip_interfaces info",
                        "error on GET " ++ api ++ ": " ++ Error (GoErr "timeout") ++ ", statusCode " ++ itoa 500)] |},
     (nil_slice, Some (Diag "error reading ip_interfaces info"
                        ("error on GET " ++ api ++ ": " ++ Error (GoErr "timeout") ++ ", statusCode " ++ itoa 500)))).
Proof.
  split; [reflexivity|]. split; [reflexivity|].
  apply (get_many_transport_error eh0 failing_client tt None
           (QFields NewQuery ["name"; "svm.name"; "ip"; "scope"]) tt 500%Z (mk_slice [srv_json lif1]));
    reflexivity.
Defined.

(** X6: create panics exactly when its transport call returns a nil
    error together with an empty records collection; a transport error is
    returned as the reported diagnostic "error creating ip_interface"
    with a nil result, even when no record came back. *)
Theorem create_panics_iff {S} eh (r : RestClient S) s body s' st resp err :
  CallCreateMethod r s api create_ip_interface_query
    (match encode_body body with inr m => m | inl _ => [] end) = (s', (st, resp, err)) ->
  ((exists msg, CreateIPInterface eh r s body = Panic msg) <-> (err = None /\ Records resp = [])) /\
  (forall e, err = Some e ->
   CreateIPInterface eh r s body =
     Ret (s', {| Diags := app (Diags eh) [("error creating ip_interface",
                   "error on POST " ++ api ++ ": " ++ Error e ++ ", statusCode " ++ itoa st)] |},
          (None, Some (Diag "error creating ip_interface"
                        ("error on POST " ++ api ++ ": " ++ Error e ++ ", statusCode " ++ itoa st))))).
Proof.
  intros H. unfold CreateIPInterface. simpl in *. rewrite H.
  destruct err as [e|]; simpl.
  - split.
    + split; [intros [msg Hm]; discriminate | intros [Hc _]; discriminate].
    + intros e' He'. injection He' as <-. reflexivity.
  - split; [|intros e' He'; discriminate].
    destruct (Records resp) as [|r0 rest]; simpl.
    + split; [eauto | intros _; eauto].
    + split; [|intros [_ Hc]; discriminate].
      intros [msg Hm]. destruct (decode_get r0); discriminate.
Qed.

Lemma create_panics_iff_witness :
  CallCreateMethod failing_client tt api create_ip_interface_query
    (match encode_body spec_lif1 with inr m => m | inl _ => [] end) =
    (tt, (400%Z, empty_response, Some (GoErr "duplicate entry"))) /\
  ((exists msg, CreateIPInterface eh0 failing_client tt spec_lif1 = Panic msg) <->
   (Some (GoErr "duplicate entry") = None /\ Records empty_response = [])) /\
  CreateIPInterface eh0 failing_client tt spec_lif1 =
     Ret (tt, {| Diags := app (Diags eh0) [("error creating ip_interface",
                   "error on POST " ++ api ++ ": " ++ Error (GoErr "duplicate entry") ++ ", statusCode " ++ itoa 400)] |},
          (None, Some (Diag "error creating ip_interface"
                        ("error on POST " ++ api ++ ": " ++ Error (GoErr "duplicate entry") ++ ", statusCode " ++ itoa 400)))).
Proof.
  destruct (create_panics_iff eh0 failing_client tt spec_lif1 tt 400%Z empty_response
              (Some (GoErr "duplicate entry")) eq_refl) as [H1 H2].
  split; [reflexivity|]. split; [exact H1|]. apply H2. reflexivity.
Defined.

(** X7: when the create call succeeds and the first returned record
    decodes, create returns that record and nothing else: the records
    after it are ignored and no diagnostic is reported. *)
Theorem create_returns_first_record {S} eh (r : RestClient S) s body s' st resp r0 rest d :
  CallCreateMethod r s api create_ip_interface_query
    (match encode_body body with inr m => m | inl _ => [] end) = (s', (st, resp, None)) ->
  Records resp = r0 :: rest -> decode_get r0 = inr d ->
  CreateIPInterface eh r s body = Ret (s', eh, (Some d, None)).
Proof.
  intros H Hr Hd. unfold CreateIPInterface. simpl in *. rewrite H, Hr, Hd. reflexivity.
Qed.

Definition two_records : RestResponse :=
  {| NumRecords := 2; Records := [srv_json lif1; [("name", JNum 1)]] |}.

Lemma create_returns_first_record_witness :
  CallCreateMethod (canned None nil_slice two_records) tt api create_ip_interface_query
    (match encode_body spec_lif1 with inr m => m | inl _ => [] end) = (tt, (201%Z, two_records, None)) /\
  Records two_records = srv_json lif1 :: [[("name", JNum 1)]] /\
  decode_get (srv_json lif1) = inr {| Name := "lif1"; Scope := "svm"; SVMName := ""; UUID := "u1" |} /\
  CreateIPInterface eh0 (canned None nil_slice two_records) tt spec_lif1 =
    Ret (tt, eh0, (Some {| Name := "lif1"; Scope := "svm"; SVMName := ""; UUID := "u1" |}, None)).
Proof.
  split; [reflexivity|]. split; [reflexivity|]. split; [reflexivity|].
  apply (create_returns_first_record eh0 (canned None nil_slice two_records) tt spec_lif1 tt 201%Z
           two_records (srv_json lif1) [[("name", JNum 1)]]); reflexivity.
Defined.

Lemma decode_records_first_failure eh st acc pre bad post e :
  Forall (fun m => exists d, decode_get m = inr d) pre ->
  decode_get bad = inl e ->
  decode_records eh st acc (pre ++ bad :: post)%list =
    ({| Diags := app (Diags eh) [("failed to decode response from GET " ++ api,
                      "error: " ++ e ++ ", statusCode " ++ itoa st ++ ", info " ++ gosyntax (JObj bad))] |},
     (nil_slice, Some (Diag ("failed to decode response from GET " ++ api)
                        ("error: " ++ e ++ ", statusCode " ++ itoa st ++ ", info " ++ gosyntax (JObj bad))))).
Proof.
  intros Hpre Hbad. revert acc. induction Hpre as [|m pre [d Hd] _ IH]; intros acc; simpl.
  - rewrite Hbad. reflexivity.
  - rewrite Hd. apply IH.
Qed.

(** X8: decoding in get-many stops at the first record that fails: the
    reported error ("failed to decode response from GET
    network/ip/interfaces") names that record and its decode error, and
    the records after it are not looked at. *)
Theorem get_many_reports_first_bad_record {S} eh (r : RestClient S) s filter query s' st pre bad post e :
  get_ip_interfaces_query filter = inr query ->
  GetZeroOrMoreRecords r s api query = (s', (st, mk_slice (pre ++ bad :: post)%list, None)) ->
  Forall (fun m => exists d, decode_get m = inr d) pre ->
  decode_get bad = inl e ->
  (GetIPInterfaces eh r s filter).2 =
    (nil_slice, Some (Diag ("failed to decode response from GET " ++ api)
                       ("error: " ++ e ++ ", statusCode " ++ itoa st ++ ", info " ++ gosyntax (JObj bad)))).
Proof.
  intros Hq H Hpre Hbad. unfold GetIPInterfaces. rewrite Hq, H. simpl.
  rewrite (decode_records_first_failure eh st nil_slice pre bad post e Hpre Hbad).
  reflexivity.
Qed.

Definition bad_record : jobj := [("name", JNum 7)].

Lemma get_many_reports_first_bad_record_witness :
  get_ip_interfaces_query None = inr (QFields NewQuery ["name"; "svm.name"; "ip"; "scope"]) /\
  GetZeroOrMoreRecords (canned None bad_many empty_response) tt api
    (QFields NewQuery ["name"; "svm.name"; "ip"; "scope"]) =
    (tt, (200%Z, mk_slice ([srv_json lif1] ++ bad_record :: [srv_json lif1])%list, None)) /\
  Forall (fun m => exists d, decode_get m = inr d) [srv_json lif1] /\
  decode_get bad_record = inl "1 error(s) decoding: * 'name' expected type 'string', got unconvertible type 'float64', value: '7'" /\
  (GetIPInterfaces eh0 (canned None bad_many empty_response) tt None).2 =
    (nil_slice, Some (Diag ("failed to decode response from GET " ++ api)
                       ("error: " ++ "1 error(s) decoding: * 'name' expected type 'string', got unconvertible type 'float64', value: '7'"
                        ++ ", statusCode " ++ itoa 200 ++ ", info " ++ gosyntax (JObj bad_record)))).
Proof.
  assert (Hpre : Forall (fun m => exists d, decode_get m = inr d) [srv_json lif1]).
  { constructor; [eexists; reflexivity | constructor]. }
  split; [reflexivity|]. split; [reflexivity|]. split; [exact Hpre|]. split; [reflexivity|].
  apply (get_many_reports_first_bad_record eh0 (canned None bad_many empty_response) tt None
           (QFields NewQuery ["name"; "svm.name"; "ip"; "scope"]) tt 200%Z
           [srv_json lif1] bad_record [srv_json lif1]); [reflexivity | reflexivity | exact Hpre | reflexivity].
Defined.

(** X9: a get-one response whose keys are all ASCII and none of which is
    name, scope, svm.name or uuid, even up to case, is not an error:
    get-one returns the zero record, all four fields empty. *)
Theorem get_one_missing_keys_zero_record {S} eh (r : RestClient S) s name svmName s' st m :
  GetNilOrOneRecord r s api (get_ip_interface_query name svmName) = (s', (st, Some m, None)) ->
  Forall (fun kv => ascii_key kv.1 = true) m ->
  (forall tag, In tag ["name"; "scope"; "svm.name"; "uuid"] -> field_value m tag = None) ->
  GetIPInterface eh r s name svmName = (s', eh, (Some zero_get, None)).
Proof.
  intros H _ Hk. unfold GetIPInterface. rewrite H. simpl.
  unfold decode_get.
  rewrite (Hk "name"), (Hk "scope"), (Hk "svm.name"), (Hk "uuid"); simpl; auto.
Qed.

Definition ip_only : jobj := [("ip", JObj [("address", JStr "10.0.0.5"); ("netmask", JNum 24)])].

Lemma get_one_missing_keys_zero_record_witness :
  GetNilOrOneRecord (canned (Some ip_only) nil_slice empty_response) tt api
    (get_ip_interface_query "lif1" "vs1") = (tt, (200%Z, Some ip_only, None)) /\
  Forall (fun kv => ascii_key kv.1 = true) ip_only /\
  (forall tag, In tag ["name"; "scope"; "svm.name"; "uuid"] -> field_value ip_only tag = None) /\
  GetIPInterface eh0 (canned (Some ip_only) nil_slice empty_response) tt "lif1" "vs1" =
    (tt, eh0, (Some zero_get, None)).
Proof.
  assert (Hk : forall tag, In tag ["name"; "scope"; "svm.name"; "uuid"] -> field_value ip_only tag = None).
  { intros tag Hin. simpl in Hin.
    destruct Hin as [<-|[<-|[<-|[<-|[]]]]]; reflexivity. }
  split; [reflexivity|]. split; [repeat constructor|]. split; [exact Hk|].
  apply (get_one_missing_keys_zero_record eh0 _ tt "lif1" "vs1" tt 200%Z ip_only);
    [reflexivity | repeat constructor | exact Hk].
Defined.

(** X10: a get-one response whose key name, scope, svm.name or uuid
    (exactly that key) holds a value that is neither a string nor null (a
    number, boolean, object or array) is rejected: get-one returns a nil
    result and the error "failed to decode response from GET
    network/ip/interfaces". *)
Theorem get_one_non_string_field_rejected {S} eh (r : RestClient S) s name svmName s' st m tag v :
  GetNilOrOneRecord r s api (get_ip_interface_query name svmName) = (s', (st, Some m, None)) ->
  In tag ["name"; "scope"; "svm.name"; "uuid"] ->
  map_index m tag = Some v ->
  (forall x, v <> JStr x) -> v <> JNull ->
  exists d, (GetIPInterface eh r s name svmName).2 =
            (None, Some (Diag ("failed to decode response from GET " ++ api) d)).
Proof.
  intros H Hin Hm Hs Hn. unfold GetIPInterface. rewrite H. simpl.
  assert (Hv : field_value m tag = Some v) by (unfold field_value; rewrite Hm; reflexivity).
  assert (Hbad : forall cur, exists e, decode_string tag cur (Some v) = inl e).
  { intros cur. destruct v; try (eexists; reflexivity); [congruence | exfalso; eapply Hs; reflexivity]. }
  unfold decode_get.
  simpl in Hin. destruct Hin as [<-|[<-|[<-|[<-|[]]]]]; rewrite Hv;
    destruct (Hbad "") as [e He]; rewrite He;
    repeat match goal with |- context [decode_string ?t ?c ?x] =>
             destruct (decode_string t c x) end;
    eexists; reflexivity.
Qed.

Lemma get_one_non_string_field_rejected_witness :
  GetNilOrOneRecord (canned (Some bad_record) nil_slice empty_response) tt api
    (get_ip_interface_query "lif1" "") = (tt, (200%Z, Some bad_record, None)) /\
  In "name" ["name"; "scope"; "svm.name"; "uuid"] /\
  map_index bad_record "name" = Some (JNum 7) /\
  (forall x, JNum 7 <> JStr x) /\ JNum 7 <> JNull /\
  exists d, (GetIPInterface eh0 (canned (Some bad_record) nil_slice empty_response) tt "lif1" "").2 =
            (None, Some (Diag ("failed to decode response from GET " ++ api) d)).
Proof.
  assert (Hs : forall x, JNum 7 <> JStr x) by discriminate.
  split; [reflexivity|]. split; [simpl; tauto|]. split; [reflexivity|].
  split; [exact Hs|]. split; [discriminate|].
  apply (get_one_non_string_field_rejected eh0 _ tt "lif1" "" tt 200%Z bad_record "name" (JNum 7));
    [reflexivity | simpl; tauto | reflexivity | exact Hs | discriminate].
Defined.

Lemma srv_match_get_query (x : srv_record) n v :
  srv_name x = n -> srv_svm x = v ->
  srv_scope x = (if String.eqb v "" then "cluster" else "svm") ->
  srv_match (get_ip_interface_query n v) x = true.
Proof.
  intros Hn Hv Hs. unfold srv_match. apply forallb_forall. intros [k vs] Hin.
  apply list_elem_of_In, elem_of_map_to_list in Hin.
  unfold get_ip_interface_query, QFields, QSet, NewQuery in Hin. simpl in Hin.
  destruct (String.eqb v "") eqn:Ev;
    rewrite ?lookup_insert, ?lookup_empty in Hin;
    repeat (case_decide; [subst; injection Hin as <-|]); try discriminate;
    unfold srv_param_ok, srv_field; simpl;
    rewrite ?Hn, ?Hv, ?Hs, ?String.eqb_refl; reflexivity.
Qed.

Lemma decode_srv_json x : exists d, decode_get (srv_json x) = inr d.
Proof.
  unfold srv_json, decode_get. simpl.
  destruct (String.eqb (srv_svm x) ""); simpl; eexists; reflexivity.
Qed.

(** X11: against the remote API modelled from the spec, create followed
    by get-one with the same name and svm returns the very record create
    returned (same name, scope, svm and uuid), provided no record
    matched that name and svm before the create. *)
Theorem create_then_get_round_trip eh (s : srv_state) body :
  List.filter (srv_match (get_ip_interface_query (BodyName body) (VserverName (SVM body)))) s = [] ->
  match CreateIPInterface eh ontap s body with
  | Ret (s1, eh1, (Some d, None)) =>
      (GetIPInterface eh1 ontap s1 (BodyName body) (VserverName (SVM body))).2 = (Some d, None)
  | _ => False
  end.
Proof.
  intros Hnone.
  unfold CreateIPInterface. simpl.
  rewrite bool_decide_eq_true_2 by reflexivity. simpl.
  set (x := srv_of_body _ _).
  destruct (decode_srv_json x) as [d Hd].
  assert (Hm : srv_match (get_ip_interface_query (BodyName body) (VserverName (SVM body))) x = true).
  { apply srv_match_get_query; reflexivity. }
  rewrite Hd. unfold GetIPInterface. simpl.
  rewrite List.filter_app, Hnone. simpl. rewrite Hm. simpl. rewrite Hd. reflexivity.
Qed.

Lemma create_then_get_round_trip_witness :
  List.filter (srv_match (get_ip_interface_query "lif1" "vs1")) [] = [] /\
  match CreateIPInterface eh0 ontap [] spec_lif1 with
  | Ret (s1, eh1, (Some d, None)) =>
      (GetIPInterface eh1 ontap s1 (BodyName spec_lif1) (VserverName (SVM spec_lif1))).2 = (Some d, None)
  | _ => False
  end.
Proof.
  split; [reflexivity|]. apply (create_then_get_round_trip eh0 [] spec_lif1). reflexivity.
Defined.
